(** * exapy-answer: the query runner of backend/scripts/exapy-answer.py

    The script is eight lines of straight-line Python:

      from exa_py import Exa
      from dotenv import load_dotenv
      import os

      load_dotenv()

      exa = Exa(api_key=os.getenv("EXA_API_KEY"))
      exa.answer("What's the TCP structure?")

    It is embedded as a computation in a state-and-exception monad.  The
    state holds what the module body can touch: the process environment
    [os.environ], the module namespace, and a trace of the calls it makes
    outside itself.  The exa_py client and the remote service behind it are
    parameters: every theorem quantifies over what they return or raise. *)

From stdpp Require Import base option list strings gmap fin_maps.

Module ExapyAnswer.

Section Runner.

(** The collaborator's exception objects, client objects and answers are
    opaque to the script. *)
Context {Exn Client Answer : Type}.

(** ** The world outside the script *)

(** What the module body cannot decide by itself: the variables a local
    .env file supplies (None: there is no such file), what [Exa(api_key=..)]
    does, what [exa.answer(..)] does, and which exceptions the client
    library counts as authentication failures.  A call either raises
    ([inl]) or returns ([inr]). *)
Record Collaborators : Type := {
  dotenv_file : option (gmap string string);
  Exa_new : option string → Exn + Client;
  Exa_answer : Client → string → Exn + Answer;
  is_AuthenticationError : Exn → bool
}.

(** ** Program state *)

(** Objects a module-level name can be bound to. *)
Inductive Value : Type :=
| VImported (qualname : string)
| VClient (c : Client)
| VAnswer (a : Answer).

(** Effects of the module body, in the order they happen.  [EvWrite] is a
    write by the script to standard output, a log or a store. *)
Inductive Event : Type :=
| EvLoadDotenv
| EvGetenv (key : string) (res : option string)
| EvExa (api_key : option string) (res : Exn + Client)
| EvAnswer (exa : Client) (query : string) (res : Exn + Answer)
| EvWrite (data : string).

Record State : Type := mkState {
  environ : gmap string string;
  globals : gmap string Value;
  trace : list Event
}.

Definition record (ev : Event) (s : State) : State :=
  mkState (environ s) (globals s) (trace s ++ [ev]).

(** How the process ends: exit status 0, or an exception nobody caught. *)
Inductive Exit : Type :=
| Exit0
| Uncaught (e : Exn).

(** ** The monad of Python statements *)

(** A statement runs from a state and either raises or returns; the state
    reached is kept in both cases. *)
Definition Py (A : Type) : Type := State → (Exn + A) * State.

Definition ret {A} (a : A) : Py A := λ s, (inr a, s).

Definition bind {A B} (m : Py A) (k : A → Py B) : Py B :=
  λ s, match m s with
       | (inl e, s') => (inl e, s')
       | (inr a, s') => k a s'
       end.

(** Calling a collaborator: the call is recorded with its outcome, and an
    exception it raises is raised in the script. *)
Definition call {A} (ev : Exn + A → Event) (res : Exn + A) : Py A :=
  λ s, (res, record (ev res) s).

End Runner.

Arguments Collaborators : clear implicits.
Arguments Value : clear implicits.
Arguments Event : clear implicits.
Arguments State : clear implicits.
Arguments Exit : clear implicits.

Declare Scope py_scope.
Delimit Scope py_scope with py.
Notation "x <- m ;; k" := (bind m (λ x, k))
(at level 100, m at next level, right associativity) : py_scope.
Notation "m ;;; k" := (bind m (λ _, k))
(at level 100, right associativity) : py_scope.

Section Script.

Context {Exn Client Answer : Type}.
Variable W : Collaborators Exn Client Answer.

Local Abbreviation St := (State Exn Client Answer).
Local Abbreviation M := (@Py Exn Client Answer).

(** Modelled from the spec: [load_dotenv] is the loader of the third-party
    python-dotenv package, whose code is not part of this repository.  The
    spec describes it as loading "environment configuration into the
    process's environment namespace", from "an optional local file
    supplying environment variables" that is a "fallback" for the process
    environment, and whose absence "is tolerated by the loader itself".
    So: without a file the environment is unchanged; with one, the file
    fills in the variables the environment lacks and the ones already set
    win (the union of finite maps is left-biased). *)
Definition dotenv_apply (file : option (gmap string string))
    (env : gmap string string) : gmap string string :=
  match file with
  | None => env
  | Some vars => env ∪ vars
  end.

(** [load_dotenv()], line 5; its return value is dropped. *)
Definition load_dotenv : M unit :=
  λ s, (inr tt,
        record EvLoadDotenv
          (mkState (dotenv_apply (dotenv_file W) (environ s))
                   (globals s) (trace s))).

(** [os.getenv(key)] is [os.environ.get(key)]: None for a missing key. *)
Definition os_getenv (key : string) : M (option string) :=
  λ s, let r := environ s !! key in (inr r, record (EvGetenv key r) s).

(** [Exa(api_key=..)] *)
Definition Exa (api_key : option string) : M Client :=
  call (EvExa api_key) (Exa_new W api_key).

(** [exa.answer(query)] *)
Definition answer (exa : Client) (query : string) : M Answer :=
  call (EvAnswer exa query) (Exa_answer W exa query).

(** [name = v] at module level. *)
Definition assign (name : string) (v : Value Client Answer) : M unit :=
  λ s, (inr tt, mkState (environ s) (<[name := v]> (globals s)) (trace s)).

(** Lines 5 to 8.  Line 7 evaluates the argument first, then calls the
    constructor, then binds [exa]; line 8 is an expression statement, so
    the value of the call is dropped. *)
Definition module_body : M unit :=
  (load_dotenv ;;;
   api_key <- os_getenv "EXA_API_KEY" ;;
   exa <- Exa api_key ;;
   assign "exa" (VClient exa) ;;;
   _ <- answer exa "What's the TCP structure?" ;;
   ret tt)%py.

(** Lines 1 to 3 bind the three imported names. *)
Definition imports : gmap string (Value Client Answer) :=
  {[ "Exa" := VImported "exa_py.Exa";
     "load_dotenv" := VImported "dotenv.load_dotenv";
     "os" := VImported "os" ]}.

Definition initial (env : gmap string string) : St :=
  mkState env imports [].

Definition run (env : gmap string string) : Exit Exn * St :=
  match module_body (initial env) with
  | (inl e, s) => (Uncaught e, s)
  | (inr _, s) => (Exit0, s)
  end.

(** The credential line 7 reads: the variable as it stands after line 5. *)
Definition credential (env : gmap string string) : option string :=
  dotenv_apply (dotenv_file W) env !! "EXA_API_KEY".

(** Modelled from the spec: the exa_py client and the service behind it are
    third-party code, not part of this repository.  The spec says the call
    "fails with AuthenticationError if the credential is missing or invalid
    (surfaced by the remote collaborator, not handled locally)", at client
    construction or at call time.  So: if the constructor lets a missing
    key through, every answer call on the client it built raises an
    exception of the AuthenticationError class. *)
Definition rejects_missing_credential : Prop :=
  ∀ exa, Exa_new W None = inr exa →
    ∀ q, ∃ e, Exa_answer W exa q = inl e ∧ is_AuthenticationError W e = true.

End Script.

(** ** Observations on a trace *)

Section Observations.

Context {Exn Client Answer : Type}.

(** The query strings handed to [exa.answer], oldest first: what a test
    double capturing the call arguments sees. *)
Definition queries (tr : list (Event Exn Client Answer)) : list string :=
  omap (λ ev, match ev with EvAnswer _ q _ => Some q | _ => None end) tr.

(** The credentials clients were constructed with. *)
Definition credentials (tr : list (Event Exn Client Answer))
    : list (option string) :=
  omap (λ ev, match ev with EvExa k _ => Some k | _ => None end) tr.

(** What the script wrote to standard output, a log or a store. *)
Definition writes (tr : list (Event Exn Client Answer)) : list string :=
  omap (λ ev, match ev with EvWrite d => Some d | _ => None end) tr.

(** The file supplies a variable. *)
Definition supplies (file : option (gmap string string)) (key : string)
    : Prop :=
  match file with
  | None => False
  | Some vars => is_Some (vars !! key)
  end.

(** *** Invariants of statements *)

Local Abbreviation St := (State Exn Client Answer).
Local Abbreviation Ev := (Event Exn Client Answer).
Local Abbreviation M := (@Py Exn Client Answer).

(** [m] keeps the state property [I]. *)
Definition preserves {A} (I : St → Prop) (m : M A) : Prop :=
  ∀ s, I s → I (m s).2.

(** Every event of the trace satisfies [P]. *)
Definition emitted (P : Ev → Prop) (s : St) : Prop := Forall P (trace s).

(** The only answer calls in the module body carry the literal of line 8,
    and nothing in it writes. *)
Definition line8_only (ev : Ev) : Prop :=
  match ev with
  | EvAnswer _ q _ => q = "What's the TCP structure?"
  | EvWrite _ => False
  | _ => True
  end.

(** No module-level name is bound to an answer. *)
Definition no_answer_bound (s : St) : Prop :=
  ∀ name a, globals s !! name ≠ Some (VAnswer a).

End Observations.

(** ** Test doubles for the collaborators *)

Module Stub.

Inductive exn : Type :=
| ValueError
| AuthenticationError
| NetworkError
| ServiceError.

Definition is_auth (e : exn) : bool :=
  match e with AuthenticationError => true | _ => false end.

(** The service knows one key. *)
Definition serve (cred : option string) (query : string) : exn + string :=
  match cred with
  | Some k => if String.eqb k "sk-valid" then inr ("re: " +:+ query)
              else inl AuthenticationError
  | None => inl AuthenticationError
  end.

(** A client that refuses to be built without a key. *)
Definition strict (file : option (gmap string string))
    : Collaborators exn string string :=
  {| dotenv_file := file;
     Exa_new := λ k, match k with
                     | None => inl ValueError
                     | Some k => inr k
                     end;
     Exa_answer := λ c q, serve (Some c) q;
     is_AuthenticationError := is_auth |}.

(** A client that takes any key and leaves the check to the service. *)
Definition deferring (file : option (gmap string string))
    : Collaborators exn (option string) string :=
  {| dotenv_file := file;
     Exa_new := λ k, inr k;
     Exa_answer := serve;
     is_AuthenticationError := is_auth |}.

(** A double that answers whatever the credential. *)
Definition permissive : Collaborators exn (option string) string :=
  {| dotenv_file := None;
     Exa_new := λ k, inr k;
     Exa_answer := λ _ q, inr ("re: " +:+ q);
     is_AuthenticationError := is_auth |}.

(** A double whose transport is down. *)
Definition offline : Collaborators exn (option string) string :=
  {| dotenv_file := None;
     Exa_new := λ k, inr k;
     Exa_answer := λ _ _, inl NetworkError;
     is_AuthenticationError := is_auth |}.

(** Sample environments. *)
Definition env_unset : gmap string string := {[ "HOME" := "/root" ]}.
Definition env_valid : gmap string string :=
  {[ "EXA_API_KEY" := "sk-valid"; "HOME" := "/root" ]}.
Definition dotenv_valid : option (gmap string string) :=
  Some {[ "EXA_API_KEY" := "sk-valid" ]}.

End Stub.

(** * Properties *)

Section Laws.

Context {Exn Client Answer : Type}.
Variable W : Collaborators Exn Client Answer.

Local Abbreviation St := (State Exn Client Answer).
Local Abbreviation Ev := (Event Exn Client Answer).
Local Abbreviation M := (@Py Exn Client Answer).

(** *** The loader *)

Lemma dotenv_apply_keeps file (env : gmap string string) k v :
  env !! k = Some v → dotenv_apply file env !! k = Some v.
Proof.
  intros Hk. destruct file as [vars|]; simpl; [|done].
  by apply lookup_union_Some_l.
Qed.

Lemma dotenv_apply_absent file (env : gmap string string) k :
  env !! k = None → ¬ supplies file k → dotenv_apply file env !! k = None.
Proof.
  intros Hk Hf. destruct file as [vars|]; simpl in *; [|done].
  apply lookup_union_None. split; [done|].
  destruct (vars !! k) eqn:E; [|done]. exfalso. apply Hf. by eexists.
Qed.

Lemma dotenv_apply_idemp file (env : gmap string string) :
  dotenv_apply file (dotenv_apply file env) = dotenv_apply file env.
Proof.
  destruct file as [vars|]; simpl; [|done].
  by rewrite <- (assoc_L (∪)), (idemp_L (∪)).
Qed.

(** *** Invariants of statements *)

Create HintDb py.

Lemma preserves_ret {A} (I : St → Prop) (a : A) : preserves I (ret a).
Proof. by intros s. Qed.

Lemma preserves_bind {A B} (I : St → Prop) (m : M A) (k : A → M B) :
  preserves I m → (∀ a, preserves I (k a)) → preserves I (bind m k).
Proof.
  intros Hm Hk s Hs. unfold bind. specialize (Hm s Hs).
  destruct (m s) as [[e|a] s1]; simpl in *; [done|]. by apply Hk.
Qed.

Lemma emitted_record (P : Ev → Prop) ev s :
  P ev → emitted P s → emitted P (record ev s).
Proof.
  unfold emitted, record. simpl. intros Hev Hs.
  apply Forall_app. split; [done|]. by constructor.
Qed.

Lemma emitted_load_dotenv (P : Ev → Prop) :
  P EvLoadDotenv → preserves (emitted P) (load_dotenv W).
Proof. intros Hev s Hs. by apply emitted_record. Qed.

Lemma emitted_os_getenv (P : Ev → Prop) key :
  (∀ r, P (EvGetenv key r)) → preserves (emitted P) (os_getenv key).
Proof. intros Hev s Hs. by apply emitted_record. Qed.

Lemma emitted_Exa (P : Ev → Prop) k :
  (∀ r, P (EvExa k r)) → preserves (emitted P) (Exa W k).
Proof. intros Hev s Hs. by apply emitted_record. Qed.

Lemma emitted_answer (P : Ev → Prop) c q :
  (∀ r, P (EvAnswer c q r)) → preserves (emitted P) (answer W c q).
Proof. intros Hev s Hs. by apply emitted_record. Qed.

Lemma emitted_assign (P : Ev → Prop) name v :
  preserves (emitted P) (assign name v).
Proof. by intros s Hs. Qed.

#[local] Hint Resolve preserves_ret emitted_load_dotenv emitted_os_getenv
  emitted_Exa emitted_answer emitted_assign : py.
#[local] Hint Extern 1 (line8_only _) => first [exact I | reflexivity] : py.

(** Splits the module body into its statements, one goal each. *)
Ltac per_statement :=
  unfold module_body; repeat (apply preserves_bind; [|intros ?]).

Lemma module_body_line8_only : preserves (emitted line8_only) (module_body W).
Proof. per_statement; auto with py. Qed.

Lemma run_state env : (run W env).2 = (module_body W (initial env)).2.
Proof. unfold run. by destruct (module_body W (initial env)) as [[e|[]] s]. Qed.

Lemma run_line8_only env : emitted line8_only (run W env).2.
Proof.
  rewrite run_state. apply module_body_line8_only. by constructor.
Qed.

Lemma queries_elem (tr : list Ev) q :
  q ∈ queries tr ↔ ∃ c r, EvAnswer c q r ∈ tr.
Proof.
  unfold queries. rewrite list_elem_of_omap. split.
  - intros [ev [Hin Hq]]. destruct ev; simplify_eq. eauto.
  - intros (c & r & Hin). by exists (EvAnswer c q r).
Qed.

Lemma run_queries_literal env q :
  q ∈ queries (trace (run W env).2) → q = "What's the TCP structure?".
Proof.
  intros (c & r & Hin)%queries_elem.
  pose proof (run_line8_only env) as Hall.
  unfold emitted in Hall. rewrite Forall_forall in Hall.
  exact (Hall _ Hin).
Qed.

(** *** The module namespace *)

Lemma no_answer_bound_assign_client name (c : Client) :
  preserves (no_answer_bound : St → Prop) (assign name (VClient c)).
Proof.
  intros s Hs n a. simpl. destruct (decide (name = n)) as [->|Hne].
  - by rewrite lookup_insert_eq.
  - rewrite lookup_insert_ne by done. apply Hs.
Qed.

Lemma no_answer_bound_untouched {A} (m : M A) :
  (∀ s, globals (m s).2 = globals s) → preserves no_answer_bound m.
Proof. intros Hm s Hs n a. rewrite Hm. apply Hs. Qed.

Lemma module_body_no_answer_bound : preserves no_answer_bound (module_body W).
Proof.
  per_statement;
    first [apply no_answer_bound_assign_client
          |by apply no_answer_bound_untouched].
Qed.

Lemma initial_no_answer_bound env : no_answer_bound (initial env : St).
Proof.
  intros n a. unfold initial, imports. simpl.
  rewrite !lookup_insert, lookup_singleton. by repeat case_decide.
Qed.

(** *** The run, case by case *)

Lemma run_unfold env :
  run W env =
  let cred := credential W env in
  let pre := [EvLoadDotenv; EvGetenv "EXA_API_KEY" cred] in
  match Exa_new W cred with
  | inl e =>
      (Uncaught e,
       mkState (dotenv_apply (dotenv_file W) env) imports
               (pre ++ [EvExa cred (inl e)]))
  | inr exa =>
      let r := Exa_answer W exa "What's the TCP structure?" in
      (match r with inl e => Uncaught e | inr _ => Exit0 end,
       mkState (dotenv_apply (dotenv_file W) env)
               (<["exa" := VClient exa]> imports)
               (pre ++ [EvExa cred (inr exa);
                        EvAnswer exa "What's the TCP structure?" r]))
  end.
Proof.
  unfold run, module_body, bind, load_dotenv, os_getenv, Exa, answer, call,
    assign, ret, record, initial, credential. simpl.
  destruct (Exa_new W _) as [e|exa]; simpl; [done|].
  by destruct (Exa_answer W exa _).
Qed.

Lemma run_credentials env :
  credentials (trace (run W env).2) = [credential W env].
Proof.
  rewrite run_unfold. simpl. by destruct (Exa_new W _).
Qed.

Lemma run_environ env :
  environ (run W env).2 = dotenv_apply (dotenv_file W) env.
Proof.
  rewrite run_unfold. simpl. by destruct (Exa_new W _).
Qed.

(** *** The claims *)

(** C1: whenever a run reaches the remote call, the query string handed to
    the client's [answer] is the literal "What's the TCP structure?". *)
Theorem answer_query_is_literal env exa q r :
  EvAnswer exa q r ∈ trace (run W env).2 →
  q = "What's the TCP structure?".
Proof.
  intros Hin. apply (run_queries_literal env).
  apply queries_elem. eauto.
Qed.

(** C2: with EXA_API_KEY unset and not supplied by a .env file, and a
    client library that rejects a missing credential, the run ends in an
    uncaught exception: raised by the constructor, before any request, or
    raised by the answer call and of the AuthenticationError class.  It
    never exits with status 0.  The one client construction attempted got
    None as its key. *)
Theorem missing_credential_never_succeeds env :
  env !! "EXA_API_KEY" = None →
  ¬ supplies (dotenv_file W) "EXA_API_KEY" →
  rejects_missing_credential W →
  (run W env).1 ≠ Exit0 ∧
  credentials (trace (run W env).2) = [None] ∧
  ((∃ e, Exa_new W None = inl e ∧ (run W env).1 = Uncaught e ∧
         queries (trace (run W env).2) = [])
   ∨ (∃ exa e, Exa_new W None = inr exa ∧
         Exa_answer W exa "What's the TCP structure?" = inl e ∧
         is_AuthenticationError W e = true ∧
         (run W env).1 = Uncaught e)).
Proof.
  intros Henv Hfile Hrej.
  pose proof (dotenv_apply_absent (dotenv_file W) env _ Henv Hfile) as Hcred.
  fold (credential W env) in Hcred.
  rewrite run_credentials, run_unfold, Hcred. simpl.
  destruct (Exa_new W None) as [e|exa] eqn:Hnew; simpl.
  - split; [done|]. split; [done|]. left. by exists e.
  - destruct (Hrej exa Hnew "What's the TCP structure?") as (e & Hans & Hauth).
    rewrite Hans. split; [done|]. split; [done|]. right. by exists exa, e.
Qed.

(** C3: an exception raised by the remote call is the exception the
    process dies of: the same object, uncaught.  The failed call is the
    last thing the run did, it was issued once, and nothing was written. *)
Theorem remote_error_escapes env exa q e :
  EvAnswer exa q (inl e) ∈ trace (run W env).2 →
  (run W env).1 = Uncaught e ∧
  last (trace (run W env).2) = Some (EvAnswer exa q (inl e)) ∧
  length (queries (trace (run W env).2)) = 1 ∧
  writes (trace (run W env).2) = [].
Proof.
  rewrite run_unfold. simpl.
  destruct (Exa_new W _) as [e'|exa']; simpl.
  - rewrite !elem_of_cons, elem_of_nil. by intros [?|[?|[?|[]]]].
  - rewrite !elem_of_cons, elem_of_nil.
    intros [?|[?|[?|[Heq|[]]]]]; [done..|].
    injection Heq as -> -> Hr. by rewrite <- Hr.
Qed.

(** C4: in every run the script writes nothing, and no module-level name
    is ever bound to the answer: the value of the call is dropped. *)
Theorem answer_is_discarded env :
  writes (trace (run W env).2) = [] ∧
  no_answer_bound (run W env).2.
Proof.
  split.
  - pose proof (run_line8_only env) as Hall. unfold emitted in Hall.
    induction Hall as [|ev tr Hev _ IH]; [done|].
    destruct ev; simpl in *; done.
  - rewrite run_state. apply module_body_no_answer_bound.
    apply initial_no_answer_bound.
Qed.

(** C5: a second [load_dotenv()] right after the first does not raise and
    leaves the environment as the first call left it; in particular every
    variable present after the first call, the credential included, keeps
    its value.  The first call itself does not raise and does not touch a
    variable that was already set. *)
Theorem load_dotenv_twice (s : St) :
  let once := load_dotenv W s in
  let twice := load_dotenv W once.2 in
  once.1 = inr tt ∧ twice.1 = inr tt ∧
  environ twice.2 = environ once.2 ∧
  (∀ k v, environ once.2 !! k = Some v → environ twice.2 !! k = Some v) ∧
  (∀ k v, environ s !! k = Some v → environ once.2 !! k = Some v).
Proof.
  simpl. repeat split.
  - apply dotenv_apply_idemp.
  - intros k v. by rewrite dotenv_apply_idemp.
  - intros k v. apply dotenv_apply_keeps.
Qed.

(** C6, as amended: where EXA_API_KEY is absent when line 7 reads it, the
    read returns None and does not raise; the run goes on to construct the
    client with None; and if the process then dies of an exception, the
    exception was raised by the client constructor or by the answer call. *)
Theorem absent_key_read_yields_None env :
  credential W env = None →
  (∀ s : St, environ s !! "EXA_API_KEY" = None →
             (os_getenv "EXA_API_KEY" s).1 = inr None) ∧
  take 3 (trace (run W env).2) =
    [EvLoadDotenv; EvGetenv "EXA_API_KEY" None; EvExa None (Exa_new W None)] ∧
  (∀ e, (run W env).1 = Uncaught e →
        Exa_new W None = inl e
        ∨ ∃ exa, Exa_new W None = inr exa ∧
                 Exa_answer W exa "What's the TCP structure?" = inl e).
Proof.
  intros Hcred. split; [|split].
  - intros s Hs. unfold os_getenv. simpl. by rewrite Hs.
  - rewrite run_unfold, Hcred. simpl. by destruct (Exa_new W None).
  - intros e. rewrite run_unfold, Hcred. simpl.
    destruct (Exa_new W None) as [e'|exa]; simpl.
    + intros [= ->]. by left.
    + destruct (Exa_answer W exa _) as [e'|a] eqn:Hans; [|done].
      intros [= ->]. right. by exists exa.
Qed.

(** C7: a run that exits with status 0 has invoked the client's [answer]
    exactly once. *)
Theorem completed_run_issues_one_request env :
  (run W env).1 = Exit0 →
  length (queries (trace (run W env).2)) = 1.
Proof.
  rewrite run_unfold. simpl.
  destruct (Exa_new W _) as [e|exa]; simpl; [done|].
  by destruct (Exa_answer W exa _).
Qed.

(** C8: every trace starts with the loader, then the read of EXA_API_KEY,
    then the client construction on the value just read, which is the
    value the environment holds after loading.  That is the only
    construction.  If it raises the trace ends there; otherwise exactly
    one event follows, the answer call on the client that construction
    returned, and [exa] is bound to that client. *)
Theorem steps_in_fixed_order env :
  ∃ cred res rest,
    trace (run W env).2 =
      EvLoadDotenv :: EvGetenv "EXA_API_KEY" cred :: EvExa cred res :: rest ∧
    cred = environ (run W env).2 !! "EXA_API_KEY" ∧
    credentials (trace (run W env).2) = [cred] ∧
    match res with
    | inl _ => rest = []
    | inr exa =>
        (∃ r, rest = [EvAnswer exa "What's the TCP structure?" r]) ∧
        globals (run W env).2 !! "exa" = Some (VClient exa)
    end.
Proof.
  exists (credential W env), (Exa_new W (credential W env)).
  rewrite run_credentials, run_environ, run_unfold. simpl.
  destruct (Exa_new W _) as [e|exa]; simpl.
  - by exists [].
  - eexists. split; [done|]. split; [done|]. split; [done|].
    split; [by eexists|]. by rewrite lookup_insert_eq.
Qed.

(** C9: with EXA_API_KEY set to a key the client accepts, and a service
    that returns an answer for the query, the run exits with status 0 and
    the answer call it made returned that answer. *)
Theorem valid_credential_completes env key exa a :
  env !! "EXA_API_KEY" = Some key →
  Exa_new W (Some key) = inr exa →
  Exa_answer W exa "What's the TCP structure?" = inr a →
  (run W env).1 = Exit0 ∧
  last (trace (run W env).2) =
    Some (EvAnswer exa "What's the TCP structure?" (inr a)).
Proof.
  intros Henv Hnew Hans.
  pose proof (dotenv_apply_keeps (dotenv_file W) env _ _ Henv) as Hcred.
  fold (credential W env) in Hcred.
  rewrite run_unfold. cbv zeta. rewrite Hcred, Hnew. simpl. by rewrite Hans.
Qed.

(** C10: the query does not depend on the credential.  Take two runs from
    any two environments, whatever they hold under EXA_API_KEY; if both
    reach the remote call, the query strings passed are equal, and so are
    the whole lists of queries. *)
Theorem query_independent_of_credential env1 env2 q1 q2 :
  q1 ∈ queries (trace (run W env1).2) →
  q2 ∈ queries (trace (run W env2).2) →
  q1 = q2 ∧
  queries (trace (run W env1).2) = queries (trace (run W env2).2).
Proof.
  intros H1 H2. split.
  - apply run_queries_literal in H1, H2. congruence.
  - revert H1 H2. rewrite !run_unfold. simpl.
    destruct (Exa_new W (credential W env1)), (Exa_new W (credential W env2));
      simpl; rewrite ?elem_of_nil; done.
Qed.

(** *** Further properties of the module body *)

(** X1: an exception raised by the client constructor on line 7 is the one
    the process dies of; line 8 is never reached, so no answer call goes
    out, and [exa] is never bound. *)
Theorem constructor_error_escapes env e :
  Exa_new W (credential W env) = inl e →
  (run W env).1 = Uncaught e ∧
  last (trace (run W env).2) = Some (EvExa (credential W env) (inl e)) ∧
  queries (trace (run W env).2) = [] ∧
  globals (run W env).2 !! "exa" = None.
Proof.
  intros Hnew. rewrite run_unfold. cbv zeta. rewrite Hnew. simpl.
  by repeat split.
Qed.



(** X4: the module body binds one name.  Every other name is bound after
    the run as the imports left it, and [exa] is bound, to the client the
    constructor returned, exactly when the constructor returned. *)
Theorem namespace_only_gains_exa env :
  (∀ name, name ≠ "exa" →
           globals (run W env).2 !! name
           = (imports : gmap string (Value Client Answer)) !! name) ∧
  globals (run W env).2 !! "exa" =
    match Exa_new W (credential W env) with
    | inl _ => None
    | inr exa => Some (VClient exa)
    end.
Proof.
  rewrite run_unfold. cbv zeta.
  destruct (Exa_new W (credential W env)) as [e|exa]; simpl.
  - split; [done|]. unfold imports.
    rewrite !lookup_insert, lookup_singleton. by repeat case_decide.
  - split; [|by rewrite lookup_insert_eq].
    intros name Hne. by rewrite lookup_insert_ne.
Qed.



End Laws.

(** * The claims on concrete runs *)

Section Runs.

Import Stub.

(** A valid key in the environment, a client that defers the check: the one
    answer call carries the literal. *)
Lemma answer_query_is_literal_on_valid_run :
  EvAnswer (Some "sk-valid") "What's the TCP structure?"
           (inr "re: What's the TCP structure?")
    ∈ trace (run (deferring None) env_valid).2 ∧
  "What's the TCP structure?" = "What's the TCP structure?".
Proof.
  assert (Hin : EvAnswer (Some "sk-valid") "What's the TCP structure?"
                  (inr "re: What's the TCP structure?")
                ∈ trace (run (deferring None) env_valid).2).
  { vm_compute. repeat constructor. }
  split; [exact Hin|].
  exact (answer_query_is_literal (deferring None) env_valid _ _ _ Hin).
Defined.

(** No key anywhere, a client that defers the check to the service: the run
    dies of the service's AuthenticationError. *)
Lemma missing_credential_never_succeeds_on_deferring :
  env_unset !! "EXA_API_KEY" = None ∧
  ¬ supplies (dotenv_file (deferring None)) "EXA_API_KEY" ∧
  rejects_missing_credential (deferring None) ∧
  (run (deferring None) env_unset).1 ≠ Exit0 ∧
  (run (deferring None) env_unset).1 = Uncaught AuthenticationError.
Proof.
  assert (Henv : env_unset !! "EXA_API_KEY" = None) by reflexivity.
  assert (Hfile : ¬ supplies (dotenv_file (deferring None)) "EXA_API_KEY")
    by (simpl; intros []).
  assert (Hrej : rejects_missing_credential (deferring None)).
  { intros exa Hnew q. exists AuthenticationError.
    injection Hnew as <-. split; reflexivity. }
  split; [exact Henv|]. split; [exact Hfile|]. split; [exact Hrej|].
  split; [|reflexivity].
  exact (proj1 (missing_credential_never_succeeds
                  (deferring None) env_unset Henv Hfile Hrej)).
Defined.

(** The script checks nothing itself: a double that answers whatever the
    credential lets the run exit with status 0 on a None key. *)
Example script_does_not_validate_credential :
  env_unset !! "EXA_API_KEY" = None ∧
  (run permissive env_unset).1 = Exit0 ∧
  credentials (trace (run permissive env_unset).2) = [None].
Proof. by vm_compute. Qed.

(** The transport is down: the NetworkError is what the process dies of. *)
Lemma remote_error_escapes_when_offline :
  EvAnswer (Some "sk-valid") "What's the TCP structure?" (inl NetworkError)
    ∈ trace (run offline env_valid).2 ∧
  (run offline env_valid).1 = Uncaught NetworkError ∧
  length (queries (trace (run offline env_valid).2)) = 1.
Proof.
  assert (Hin : EvAnswer (Some "sk-valid") "What's the TCP structure?"
                  (inl NetworkError)
                ∈ trace (run offline env_valid).2).
  { vm_compute. repeat constructor. }
  destruct (remote_error_escapes offline env_valid _ _ _ Hin)
    as (Hexit & _ & Hone & _).
  split; [exact Hin|]. split; [exact Hexit|exact Hone].
Defined.

(** C6 as stated fails where the client checks its key when it is built
    (as a client that rejects a missing credential may): the key is absent,
    the read succeeds, and the process dies of the constructor's exception
    with no answer call ever issued, so not at call time. *)
Lemma strict_client_fails_at_construction :
  credential (strict None) env_unset = None ∧
  rejects_missing_credential (strict None) ∧
  (run (strict None) env_unset).1 = Uncaught ValueError ∧
  ¬ (∃ exa q r, EvAnswer exa q r ∈ trace (run (strict None) env_unset).2).
Proof.
  split; [reflexivity|]. split; [by intros exa Hnew|].
  split; [reflexivity|].
  intros (exa & q & r & Hin). apply list_elem_of_In in Hin.
  vm_compute in Hin. intuition discriminate.
Qed.

(** The amended C6 on a run without a key. *)
Lemma absent_key_read_yields_None_on_unset :
  credential (deferring None) env_unset = None ∧
  take 3 (trace (run (deferring None) env_unset).2) =
    [EvLoadDotenv; EvGetenv "EXA_API_KEY" None; EvExa None (inr None)].
Proof.
  assert (Hcred : credential (deferring None) env_unset = None) by reflexivity.
  split; [exact Hcred|].
  exact (proj1 (proj2 (absent_key_read_yields_None
                         (deferring None) env_unset Hcred))).
Defined.

(** A completed run made one request. *)
Lemma completed_run_issues_one_request_on_dotenv_key :
  (run (deferring dotenv_valid) env_unset).1 = Exit0 ∧
  length (queries (trace (run (deferring dotenv_valid) env_unset).2)) = 1.
Proof.
  assert (Hexit : (run (deferring dotenv_valid) env_unset).1 = Exit0)
    by reflexivity.
  split; [exact Hexit|].
  exact (completed_run_issues_one_request
           (deferring dotenv_valid) env_unset Hexit).
Defined.

(** A valid key and a client that checks it when built. *)
Lemma valid_credential_completes_on_strict :
  env_valid !! "EXA_API_KEY" = Some "sk-valid" ∧
  Exa_new (strict None) (Some "sk-valid") = inr "sk-valid" ∧
  Exa_answer (strict None) "sk-valid" "What's the TCP structure?"
    = inr "re: What's the TCP structure?" ∧
  (run (strict None) env_valid).1 = Exit0.
Proof.
  assert (Henv : env_valid !! "EXA_API_KEY" = Some "sk-valid") by reflexivity.
  assert (Hnew : Exa_new (strict None) (Some "sk-valid") = inr "sk-valid")
    by reflexivity.
  assert (Hans : Exa_answer (strict None) "sk-valid" "What's the TCP structure?"
                 = inr "re: What's the TCP structure?") by reflexivity.
  split; [exact Henv|]. split; [exact Hnew|]. split; [exact Hans|].
  exact (proj1 (valid_credential_completes
                  (strict None) env_valid _ _ _ Henv Hnew Hans)).
Defined.

(** One run without a key, one with: the same query goes out. *)
Lemma query_independent_of_credential_on_permissive :
  env_unset !! "EXA_API_KEY" ≠ env_valid !! "EXA_API_KEY" ∧
  queries (trace (run permissive env_unset).2)
    = queries (trace (run permissive env_valid).2).
Proof.
  assert (H1 : "What's the TCP structure?"
               ∈ queries (trace (run permissive env_unset).2)).
  { vm_compute. repeat constructor. }
  assert (H2 : "What's the TCP structure?"
               ∈ queries (trace (run permissive env_valid).2)).
  { vm_compute. repeat constructor. }
  split; [by vm_compute|].
  exact (proj2 (query_independent_of_credential
                  permissive env_unset env_valid _ _ H1 H2)).
Defined.

(** The constructor refuses a missing key: no request, no [exa]. *)
Lemma constructor_error_escapes_on_strict :
  Exa_new (strict None) (credential (strict None) env_unset) = inl ValueError ∧
  (run (strict None) env_unset).1 = Uncaught ValueError ∧
  queries (trace (run (strict None) env_unset).2) = [].
Proof.
  assert (Hnew : Exa_new (strict None) (credential (strict None) env_unset)
                 = inl ValueError) by reflexivity.
  destruct (constructor_error_escapes (strict None) env_unset _ Hnew)
    as (Hexit & _ & Hq & _).
  split; [exact Hnew|]. split; [exact Hexit|exact Hq].
Defined.



End Runs.

End ExapyAnswer.
